(** * database/data_access_models.py

    A shallow embedding of the three Django models of
    [database/data_access_models.py] (ChunkRegistry, FileToProcess and
    FileProcessLock) and of the class methods they expose.

    A database table is the list of its rows in insertion order
    ([cls.objects.create] appends a row); a method that reads or writes a
    table takes the table and returns a [result] together with the table it
    leaves behind.  A Python exception is a [Raise]. *)

From Stdlib Require Import ZArith QArith Qround Ascii String Strings.Byte.
From stdpp Require Import base tactics option list gmap strings.

Local Open Scope Z_scope.

(** ** Python values and exceptions *)

(** The exceptions the module defines (lines 11-13) and the built-in ones its
    methods can end in. *)
Inductive exn : Type :=
  | FileProcessingLockedError
  | UnchunkableDataTypeError
  | ChunkableDataTypeError
  | AttributeError
  | TypeError
  | ValueError
  | OverflowError
  | DoesNotExist
  | MultipleObjectsReturned.

Inductive result (A : Type) : Type :=
  | Return (a : A)
  | Raise (e : exn).
Arguments Return {A} a.
Arguments Raise {A} e.

(** A number as a caller can pass it for [time_bin]: an [int], a finite
    [float] (every finite float is a rational) or one of the two kinds of
    non-finite float. *)
Inductive pynum : Type :=
  | PyInt (z : Z)
  | PyFloat (q : Q)
  | PyNaN
  | PyInf.

(** [int(x)]: the identity on an int, truncation toward zero on a float. *)
Definition py_int (x : pynum) : result Z :=
  match x with
  | PyInt z => Return z
  | PyFloat q => Return (Z.quot (Qnum q) (Zpos (Qden q)))
  | PyNaN => Raise ValueError
  | PyInf => Raise OverflowError
  end.

(** A [datetime] is the number of microseconds since the epoch (the server
    clock is taken to be UTC), a [timedelta] a number of microseconds. *)
Definition datetime : Type := Z.
Definition timedelta : Type := Z.

Definition round_half_even (q : Q) : Z :=
  let f := Qfloor q in
  match Qcompare (q - inject_Z f) (1 # 2) with
  | Lt => f
  | Gt => f + 1
  | Eq => if Z.even f then f else f + 1
  end.

(** The first and the last microsecond a datetime can hold: the start of
    year 1 and the end of year 9999. *)
Definition datetime_min : datetime := -62135596800 * 1000000.
Definition datetime_max : datetime := 253402300799 * 1000000 + 999999.

Definition checked_datetime (us : Z) : result datetime :=
  if (datetime_min <=? us) && (us <=? datetime_max) then Return us else Raise ValueError.

(** [datetime.fromtimestamp(t)] for [t] in seconds: a float, taken as the
    rational it stands for, is rounded to the microsecond, and a year out of
    range raises. *)
Definition fromtimestamp (t : pynum) : result datetime :=
  match t with
  | PyInt z => checked_datetime (z * 1000000)
  | PyFloat q => checked_datetime (round_half_even (q * 1000000))
  | PyNaN => Raise ValueError
  | PyInf => Raise OverflowError
  end.

Definition bytes : Type := list byte.

(** ** config.constants *)

(** The two constants of [config.constants] the methods read (line 5). Their
    values are configuration, so they are parameters of the development. *)
Class Constants : Type := {
  CHUNKABLE_FILES : gset string;
  CHUNK_TIMESLICE_QUANTUM : Z
}.

(** ** libs.security *)

(** Modelled from the spec: [libs.security] ([chunk_hash] and
    [low_memory_chunk_hash], imported on line 6) is missing from the sources.
    The spec describes the HashProvider as a deterministic fingerprint of raw
    byte content whose low-memory variant takes the same logical content
    "fed as successive fragments instead of one buffer", so that the whole
    buffer is never materialised.  That is an incremental digest: a state, a
    step that absorbs one byte, and a finaliser that renders the
    fingerprint string. *)
Class HashProvider : Type := {
  digest : Type;
  digest_new : digest;
  digest_absorb : digest -> byte -> digest;
  digest_render : digest -> string
}.

Module security.
Section security.
Context `{HashProvider}.

(** Absorbing a buffer is absorbing its bytes in order. *)
Definition digest_update (d : digest) (data : bytes) : digest :=
  fold_left digest_absorb data d.

(** Modelled from the spec: [hash(bytes) -> string], one buffer. *)
Definition chunk_hash (data : bytes) : string :=
  digest_render (digest_update digest_new data).

(** Modelled from the spec: [hashStreamed(sequenceOfByteBuffers) -> string],
    the fragments absorbed one after the other. *)
Definition low_memory_chunk_hash (list_data : list bytes) : string :=
  digest_render (fold_left digest_update list_data digest_new).
End security.
End security.

(** ** ChunkRegistry (lines 16-93) *)

Module ChunkRegistry.

(** A row of the table: the fields of lines 20-29 and the primary key that
    [AbstractModel] gives every model. *)
Record t : Type := {
  pk : Z;
  is_chunkable : bool;
  chunk_path : string;
  chunk_hash : string;
  data_type : string;
  time_bin : datetime;
  study_id : Z;
  participant_id : Z;
  survey_id : option Z
}.

Definition table : Type := list t.

(** The key an auto-increment column hands out next. *)
Definition next_pk (db : table) : Z := 1 + foldr Z.max 0 (pk <$> db).

(** [cls.objects.create(...)]: one more row, with a fresh key. *)
Definition create (db : table) (is_chunkable0 : bool) (chunk_path0 chunk_hash0 data_type0 : string)
    (time_bin0 : datetime) (study_id0 participant_id0 : Z) (survey_id0 : option Z) : table :=
  db ++ [ {| pk := next_pk db; is_chunkable := is_chunkable0; chunk_path := chunk_path0;
             chunk_hash := chunk_hash0; data_type := data_type0; time_bin := time_bin0;
             study_id := study_id0; participant_id := participant_id0;
             survey_id := survey_id0 |} ].

(** [self.save()]: the row with the key of [self] is overwritten by [self]; an
    instance whose key is not in the table is inserted. *)
Definition save (self : t) (db : table) : table :=
  if bool_decide (pk self ∈ pk <$> db)
  then (fun r => if bool_decide (pk r = pk self) then self else r) <$> db
  else db ++ [self].

Definition set_chunk_hash (self : t) (h : string) : t :=
  {| pk := pk self; is_chunkable := is_chunkable self; chunk_path := chunk_path self;
     chunk_hash := h; data_type := data_type self; time_bin := time_bin self;
     study_id := study_id self; participant_id := participant_id self;
     survey_id := survey_id self |}.

Section methods.
Context `{Constants} `{HashProvider}.

(** Lines 31-49. *)
Definition register_chunked_data (data_type0 : string) (time_bin0 : pynum) (chunk_path0 : string)
    (file_contents : bytes) (study_id0 participant_id0 : Z) (survey_id0 : option Z)
    (db : table) : result unit * table :=
  if bool_decide (data_type0 ∉ CHUNKABLE_FILES) then (Raise UnchunkableDataTypeError, db)
  else
    match py_int time_bin0 with
    | Raise e => (Raise e, db)
    | Return n =>
        let time_bin1 := n * CHUNK_TIMESLICE_QUANTUM in
        let chunk_hash_str := security.chunk_hash file_contents in
        match fromtimestamp (PyInt time_bin1) with
        | Raise e => (Raise e, db)
        | Return dt =>
            (Return (), create db true chunk_path0 chunk_hash_str data_type0 dt
                               study_id0 participant_id0 survey_id0)
        end
    end.

(** Lines 51-66. *)
Definition register_unchunked_data (data_type0 : string) (time_bin0 : pynum) (chunk_path0 : string)
    (study_id0 participant_id0 : Z) (survey_id0 : option Z)
    (db : table) : result unit * table :=
  if bool_decide (data_type0 ∈ CHUNKABLE_FILES) then (Raise ChunkableDataTypeError, db)
  else
    match fromtimestamp time_bin0 with
    | Raise e => (Raise e, db)
    | Return dt =>
        (Return (), create db false chunk_path0 "" data_type0 dt
                           study_id0 participant_id0 survey_id0)
    end.

(** Lines 87-89.  The instance after the assignment, and the table after
    the save. *)
Definition update_chunk_hash (self : t) (data_to_hash : bytes) (db : table) : t * table :=
  let self' := set_chunk_hash self (security.chunk_hash data_to_hash) in
  (self', save self' db).

(** Lines 91-93. *)
Definition low_memory_update_chunk_hash (self : t) (list_data_to_hash : list bytes)
    (db : table) : t * table :=
  let self' := set_chunk_hash self (security.low_memory_chunk_hash list_data_to_hash) in
  (self', save self' db).
End methods.

End ChunkRegistry.

(** ** The tables the foreign keys point to *)

(** [database.study_models.Study], as far as line 106 reads it. *)
Module Study.
Record t : Type := { pk : Z; object_id : string }.

(** [Study.objects.filter(object_id=...).values_list('pk', flat=True).get()]:
    the key of the one study with that public identifier. *)
Definition get_pk (studies : list t) (study_object_id : string) : result Z :=
  match List.filter (fun s => bool_decide (object_id s = study_object_id)) studies with
  | [] => Raise DoesNotExist
  | [s] => Return (pk s)
  | _ :: _ :: _ => Raise MultipleObjectsReturned
  end.
End Study.

(** The Participant model, as far as the lookup of line 78 reads it. *)
Module Participant.
Record t : Type := { pk : Z; patient_id : string }.

Definition patient_id_of (participants : list t) (key : Z) : option string :=
  patient_id <$> List.find (fun p => bool_decide (pk p = key)) participants.
End Participant.

(** ** ChunkRegistry.get_chunks_time_range (lines 68-85) *)

Module ChunkQuery.
Import ChunkRegistry.

(** What a caller can pass for [start] and [end]: nothing ([None], the
    default), a datetime (an object that is always truthy) or a falsy value
    that is not [None], for which the integer 0 stands. *)
Inductive time_arg : Type :=
  | ArgNone
  | ArgZero
  | ArgDatetime (d : datetime).

(** The entries of the [query] dict: a field lookup and its value. *)
Inductive field_lookup : Type :=
  | study_id_is (v : Z)
  | participant__patient_id__in (v : list string)
  | data_type__in (v : list string)
  | time_bin__gte (v : datetime)
  | time_bin__lte (v : datetime).

Definition lookup_holds (participants : list Participant.t) (r : ChunkRegistry.t)
    (f : field_lookup) : bool :=
  match f with
  | study_id_is v => bool_decide (study_id r = v)
  | participant__patient_id__in v =>
      match Participant.patient_id_of participants (participant_id r) with
      | Some p => bool_decide (p ∈ v)
      | None => false
      end
  | data_type__in v => bool_decide (data_type r ∈ v)
  | time_bin__gte v => bool_decide (v ≤ time_bin r)
  | time_bin__lte v => bool_decide (time_bin r ≤ v)
  end.

(** [cls.objects.filter] applied to the [query] dict: the rows every lookup
    of the dict holds of. *)
Definition objects_filter (participants : list Participant.t) (query : list field_lookup)
    (db : table) : table :=
  List.filter (fun r => forallb (lookup_holds participants r) query) db.

(** Lines 76-85.  [if user_ids:] is taken by a non-empty list only, [if start:]
    by a datetime only. *)
Definition get_chunks_time_range (participants : list Participant.t) (study_id0 : Z)
    (user_ids data_types : option (list string)) (start end_ : time_arg)
    (db : table) : table :=
  let query := [study_id_is study_id0] in
  let query := match user_ids with
               | Some (u :: us) => query ++ [participant__patient_id__in (u :: us)]
               | Some [] | None => query
               end in
  let query := match data_types with
               | Some (d :: ds) => query ++ [data_type__in (d :: ds)]
               | Some [] | None => query
               end in
  let query := match start with
               | ArgDatetime d => query ++ [time_bin__gte d]
               | ArgZero | ArgNone => query
               end in
  let query := match end_ with
               | ArgDatetime d => query ++ [time_bin__lte d]
               | ArgZero | ArgNone => query
               end in
  objects_filter participants query db.

(** The filter of the spec, read to the letter: a filter restricts as soon as
    it is provided, that is, as soon as it is not [None]. *)
Definition in_range_as_specified (participants : list Participant.t) (study_id0 : Z)
    (user_ids data_types : option (list string)) (start end_ : option datetime)
    (r : ChunkRegistry.t) : bool :=
  bool_decide (study_id r = study_id0)
  && match user_ids with
     | Some ids => match Participant.patient_id_of participants (participant_id r) with
                   | Some p => bool_decide (p ∈ ids)
                   | None => false
                   end
     | None => true
     end
  && match data_types with
     | Some tys => bool_decide (data_type r ∈ tys)
     | None => true
     end
  && match start with Some d => bool_decide (d ≤ time_bin r) | None => true end
  && match end_ with Some d => bool_decide (time_bin r ≤ d) | None => true end.

(** The same filter, where a filter restricts only when it is provided and
    truthy: a non-empty list, a datetime. *)
Definition list_filter_given (l : option (list string)) : option (list string) :=
  match l with
  | Some (x :: xs) => Some (x :: xs)
  | Some [] | None => None
  end.

Definition time_filter_given (a : time_arg) : option datetime :=
  match a with
  | ArgDatetime d => Some d
  | ArgZero | ArgNone => None
  end.

Definition in_range_when_truthy (participants : list Participant.t) (study_id0 : Z)
    (user_ids data_types : option (list string)) (start end_ : time_arg)
    (r : ChunkRegistry.t) : bool :=
  in_range_as_specified participants study_id0 (list_filter_given user_ids)
    (list_filter_given data_types) (time_filter_given start) (time_filter_given end_) r.

End ChunkQuery.

(** ** FileToProcess (lines 96-111) *)

Module FileToProcess.

(** A row: the path, the study, and the participant the caller hands over in
    [**kwargs]. *)
Record t : Type := {
  s3_file_path : string;
  study_id : Z;
  participant_id : Z
}.

Definition table : Type := list t.

(** [file_path[:24]]. *)
Definition slice_to_24 (s : string) : string := String.substring 0 24 s.

(** Lines 103-111. *)
Definition append_file_for_processing (studies : list Study.t) (file_path study_object_id : string)
    (participant_id0 : Z) (db : table) : result unit * table :=
  match Study.get_pk studies study_object_id with
  | Raise e => (Raise e, db)
  | Return study_pk =>
      if bool_decide (slice_to_24 file_path = study_object_id)
      then (Return (), db ++ [ {| s3_file_path := file_path; study_id := study_pk;
                                  participant_id := participant_id0 |} ])
      else (Return (), db ++ [ {| s3_file_path := study_object_id +:+ "/" +:+ file_path;
                                  study_id := study_pk;
                                  participant_id := participant_id0 |} ])
  end.

End FileToProcess.

(** ** FileProcessLock (lines 114-135) *)

Module FileProcessLock.

Record t : Type := { lock_time : option datetime }.

Definition table : Type := list t.

(** Lines 129-131: [cls.objects.exists()]. *)
Definition islocked (db : table) : bool :=
  match db with
  | [] => false
  | _ :: _ => true
  end.

(** Lines 118-123; [now] is what [datetime.utcnow()] returns. *)
Definition lock (now : datetime) (db : table) : result unit * table :=
  if islocked db then (Raise FileProcessingLockedError, db)
  else (Return (), db ++ [ {| lock_time := Some now |} ]).

(** Lines 125-127: [cls.objects.all().delete()]. *)
Definition unlock (db : table) : result unit * table := (Return (), []).

(** Lines 133-135: [objects.last()] is [None] on an empty table, and reading
    [lock_time] off [None] raises; a null [lock_time] cannot be subtracted. *)
Definition get_time_since_locked (now : datetime) (db : table) : result timedelta :=
  match last db with
  | None => Raise AttributeError
  | Some r =>
      match lock_time r with
      | None => Raise TypeError
      | Some t => Return (now - t)
      end
  end.

(** *** Sequences of calls *)

Inductive call : Type :=
  | acquire (now : datetime)
  | release
  | is_locked
  | age (now : datetime).

(** The table a call leaves behind. *)
Definition run_call (db : table) (c : call) : table :=
  match c with
  | acquire now => snd (lock now db)
  | release => snd (unlock db)
  | is_locked => db
  | age now => db
  end.

Definition run_calls (cs : list call) (db : table) : table := fold_left run_call cs db.

(** The two states of the spec (section 4.2) and the move each call makes. *)
Inductive lock_state : Type :=
  | UNLOCKED
  | LOCKED (lockTime : datetime).

Definition spec_call (s : lock_state) (c : call) : lock_state :=
  match c, s with
  | acquire now, UNLOCKED => LOCKED now
  | acquire _, LOCKED t => LOCKED t
  | release, _ => UNLOCKED
  | is_locked, _ => s
  | age _, _ => s
  end.

Definition spec_calls (cs : list call) (s : lock_state) : lock_state := fold_left spec_call cs s.

(** The state a table stands for, when it has at most one row. *)
Definition table_of_state (s : lock_state) : table :=
  match s with
  | UNLOCKED => []
  | LOCKED t => [ {| lock_time := Some t |} ]
  end.

(** *** Two workers

    [lock] is two statements against the store: the query of line 120
    ([exists()]) and the insert of line 123.  Nothing in the method ties them
    together (no transaction, no unique constraint), so between the two a
    second worker can run its own query.  A worker inside [lock] is at one of
    three points. *)
Inductive lock_pc : Type :=
  | before_check
  | after_check (locked : bool)
  | finished (r : result unit).

Definition lock_step (now : datetime) (pc : lock_pc) (db : table) : lock_pc * table :=
  match pc with
  | before_check => (after_check (islocked db), db)
  | after_check true => (finished (Raise FileProcessingLockedError), db)
  | after_check false => (finished (Return ()), db ++ [ {| lock_time := Some now |} ])
  | finished r => (finished r, db)
  end.

Inductive worker : Type := worker_a | worker_b.

Record system : Type := {
  pc_a : lock_pc;
  pc_b : lock_pc;
  store : table
}.

Definition initial (db : table) : system :=
  {| pc_a := before_check; pc_b := before_check; store := db |}.

(** One step of the worker the scheduler picks. *)
Definition system_step (now_a now_b : datetime) (s : system) (w : worker) : system :=
  match w with
  | worker_a => let '(pc, db) := lock_step now_a (pc_a s) (store s) in
                {| pc_a := pc; pc_b := pc_b s; store := db |}
  | worker_b => let '(pc, db) := lock_step now_b (pc_b s) (store s) in
                {| pc_a := pc_a s; pc_b := pc; store := db |}
  end.

Definition run_schedule (now_a now_b : datetime) (sched : list worker) (s : system) : system :=
  fold_left (system_step now_a now_b) sched s.

Definition succeeded (pc : lock_pc) : bool :=
  match pc with
  | finished (Return _) => true
  | _ => false
  end.

Definition already_locked (pc : lock_pc) : bool :=
  match pc with
  | finished (Raise FileProcessingLockedError) => true
  | _ => false
  end.

Definition is_finished (pc : lock_pc) : bool :=
  match pc with
  | finished _ => true
  | _ => false
  end.

(** The worker has seen, or has reported, that the lock is taken. *)
Definition knows_locked (pc : lock_pc) : bool :=
  match pc with
  | after_check true | finished (Raise _) => true
  | _ => false
  end.

(** What holds of the two workers and the store at every point of every
    schedule that starts on an empty table: a row per worker that got the
    lock, a non-empty table behind every worker that was told the lock is
    taken, and no failure other than FileProcessingLockedError. *)
Definition consistent (s : system) : Prop :=
  length (store s) = (Nat.b2n (succeeded (pc_a s)) + Nat.b2n (succeeded (pc_b s)))%nat ∧
  (knows_locked (pc_a s) = true → store s ≠ []) ∧
  (knows_locked (pc_b s) = true → store s ≠ []) ∧
  (is_finished (pc_a s) = true → succeeded (pc_a s) || already_locked (pc_a s) = true) ∧
  (is_finished (pc_b s) = true → succeeded (pc_b s) || already_locked (pc_b s) = true).

(** The schedule on which the two workers both run their check before either
    runs its insert. *)
Definition racing_schedule : list worker := [worker_a; worker_b; worker_a; worker_b].

(** A schedule that lets the first worker finish before the second starts. *)
Definition serial_schedule : list worker := [worker_a; worker_a; worker_b; worker_b].

End FileProcessLock.

(** ** Histories of the registry *)

Module ChunkHistory.
Import ChunkRegistry.

(** The operations that write the registry.  A hash update is called on an
    instance that was read from the table, named here by its key. *)
Inductive op : Type :=
  | register_chunked (data_type0 : string) (time_bin0 : pynum) (chunk_path0 : string)
      (file_contents : bytes) (study_id0 participant_id0 : Z) (survey_id0 : option Z)
  | register_unchunked (data_type0 : string) (time_bin0 : pynum) (chunk_path0 : string)
      (study_id0 participant_id0 : Z) (survey_id0 : option Z)
  | update_hash (key : Z) (data_to_hash : bytes)
  | update_hash_streamed (key : Z) (list_data_to_hash : list bytes).

Definition is_registration (o : op) : bool :=
  match o with
  | register_chunked _ _ _ _ _ _ _ | register_unchunked _ _ _ _ _ _ => true
  | update_hash _ _ | update_hash_streamed _ _ => false
  end.

Definition get_by_pk (key : Z) (db : table) : option t :=
  List.find (fun r => bool_decide (pk r = key)) db.

(** A hash update is aimed at a chunkable record (or at no record at all). *)
Definition targets_chunkable (db : table) (o : op) : bool :=
  match o with
  | update_hash key _ | update_hash_streamed key _ =>
      match get_by_pk key db with
      | Some self => is_chunkable self
      | None => true
      end
  | register_chunked _ _ _ _ _ _ _ | register_unchunked _ _ _ _ _ _ => true
  end.

Section run.
Context `{Constants} `{HashProvider}.

Definition run_op (db : table) (o : op) : table :=
  match o with
  | register_chunked dt tb cp fc st pa su =>
      snd (register_chunked_data dt tb cp fc st pa su db)
  | register_unchunked dt tb cp st pa su =>
      snd (register_unchunked_data dt tb cp st pa su db)
  | update_hash key data =>
      match get_by_pk key db with
      | Some self => snd (update_chunk_hash self data db)
      | None => db
      end
  | update_hash_streamed key frags =>
      match get_by_pk key db with
      | Some self => snd (low_memory_update_chunk_hash self frags db)
      | None => db
      end
  end.

Definition run_ops (os : list op) (db : table) : table := fold_left run_op os db.

(** Every hash update of the history is aimed at a chunkable record. *)
Fixpoint well_targeted (os : list op) (db : table) : bool :=
  match os with
  | [] => true
  | o :: os' => targets_chunkable db o && well_targeted os' (run_op db o)
  end.

(** The invariant of the spec (section 3), its two equivalences, and the
    part of it that every history keeps. *)
Definition flag_matches_type (r : t) : Prop :=
  is_chunkable r = true ↔ data_type r ∈ CHUNKABLE_FILES.

Definition type_matches_hash (r : t) : Prop :=
  data_type r ∈ CHUNKABLE_FILES ↔ chunk_hash r ≠ "".

Definition record_invariant (r : t) : Prop :=
  flag_matches_type r ∧ type_matches_hash r.

Definition chunkable_has_hash (r : t) : Prop :=
  is_chunkable r = true → chunk_hash r ≠ "".

Definition weak_invariant (r : t) : Prop := flag_matches_type r ∧ chunkable_has_hash r.
End run.

End ChunkHistory.

(** ** The time bin of the spec *)

(** [floor(x)]. *)
Definition py_floor (x : pynum) : result Z :=
  match x with
  | PyInt z => Return z
  | PyFloat q => Return (Qfloor q)
  | PyNaN => Raise ValueError
  | PyInf => Raise OverflowError
  end.

(** Where truncation toward zero and the floor agree: on an int, on a float
    that is not negative, and on a float with no fractional part. *)
Definition floor_is_trunc (x : pynum) : bool :=
  match x with
  | PyFloat q => (0 <=? Qnum q) || (Qnum q mod Zpos (Qden q) =? 0)
  | PyInt _ | PyNaN | PyInf => true
  end.

(** The spec's [timeBin = floor(timeBinRaw) * QUANTUM], converted to a
    timestamp. *)
Definition spec_time_bin `{Constants} (timeBinRaw : pynum) : result datetime :=
  match py_floor timeBinRaw with
  | Return n => fromtimestamp (PyInt (n * CHUNK_TIMESLICE_QUANTUM))
  | Raise e => Raise e
  end.

(** ** A configuration and a digest to run the methods on *)

Definition example_constants : Constants :=
  {| CHUNKABLE_FILES := list_to_set ["accelerometer"; "gps"; "wifi"];
     CHUNK_TIMESLICE_QUANTUM := 3600 |}.

Definition hex_digit (n : Z) : ascii :=
  ascii_of_N (Z.to_N (if n <? 10 then 48 + n else 87 + n)).

(** A 16-bit polynomial checksum, rendered as four hexadecimal digits. *)
Definition checksum16 : HashProvider :=
  {| digest := Z;
     digest_new := 0;
     digest_absorb := fun d b => (d * 31 + Z.of_N (Byte.to_N b)) mod 65536;
     digest_render := fun d =>
       String (hex_digit (d / 4096 mod 16)) (String (hex_digit (d / 256 mod 16))
         (String (hex_digit (d / 16 mod 16)) (String (hex_digit (d mod 16)) EmptyString))) |}.

Definition example_bytes : bytes := [x64; x61; x74; x61]%byte.

Definition example_history : list ChunkHistory.op :=
  [ ChunkHistory.register_chunked "accelerometer" (PyInt 1000) "/chunks/x" example_bytes 1 2 None;
    ChunkHistory.register_unchunked "audio" (PyInt 0) "/raw/a" 1 2 None;
    ChunkHistory.update_hash 1 [] ].

Definition example_participants : list Participant.t :=
  [ {| Participant.pk := 2; Participant.patient_id := "h6fflp" |} ].

Definition example_registry : ChunkRegistry.table :=
  [ {| ChunkRegistry.pk := 1; ChunkRegistry.is_chunkable := true;
       ChunkRegistry.chunk_path := "/chunks/x"; ChunkRegistry.chunk_hash := "efaa";
       ChunkRegistry.data_type := "accelerometer";
       ChunkRegistry.time_bin := 1000 * 3600 * 1000000;
       ChunkRegistry.study_id := 1; ChunkRegistry.participant_id := 2;
       ChunkRegistry.survey_id := None |} ].

Definition example_studies : list Study.t :=
  [ {| Study.pk := 7; Study.object_id := "5873fe38644ad7557b168e43" |};
    {| Study.pk := 8; Study.object_id := "abc123" |} ].

(** ** What an operation of the registry may change in a record *)

(** Two records that differ in their hash at most. *)
Definition same_but_hash (r r' : ChunkRegistry.t) : Prop :=
  ChunkRegistry.pk r = ChunkRegistry.pk r' ∧
  ChunkRegistry.is_chunkable r = ChunkRegistry.is_chunkable r' ∧
  ChunkRegistry.chunk_path r = ChunkRegistry.chunk_path r' ∧
  ChunkRegistry.data_type r = ChunkRegistry.data_type r' ∧
  ChunkRegistry.time_bin r = ChunkRegistry.time_bin r' ∧
  ChunkRegistry.study_id r = ChunkRegistry.study_id r' ∧
  ChunkRegistry.participant_id r = ChunkRegistry.participant_id r' ∧
  ChunkRegistry.survey_id r = ChunkRegistry.survey_id r'.

(** The rewrite a hash update makes in a table whose keys are distinct: the
    record with the key gets the hash, every other record stays. *)
Definition rehash (key : Z) (h : string) (r : ChunkRegistry.t) : ChunkRegistry.t :=
  if bool_decide (ChunkRegistry.pk r = key) then ChunkRegistry.set_chunk_hash r h else r.


(** The record of [example_registry]. *)
Definition example_chunk_record : ChunkRegistry.t :=
  {| ChunkRegistry.pk := 1; ChunkRegistry.is_chunkable := true;
     ChunkRegistry.chunk_path := "/chunks/x"; ChunkRegistry.chunk_hash := "efaa";
     ChunkRegistry.data_type := "accelerometer";
     ChunkRegistry.time_bin := 1000 * 3600 * 1000000;
     ChunkRegistry.study_id := 1; ChunkRegistry.participant_id := 2;
     ChunkRegistry.survey_id := None |}.

(** * Python numbers *)

Lemma py_int_floor x : floor_is_trunc x = true → py_int x = py_floor x.
Proof.
  destruct x as [z|[n d]| |]; simpl; try done.
  intros Hx. f_equal. unfold Qfloor.
  apply orb_true_iff in Hx as [Hpos%Z.leb_le|Hwhole%Z.eqb_eq].
  - apply Z.quot_div_nonneg; lia.
  - apply Z.div_exact in Hwhole; [|lia].
    rewrite Hwhole at 1. rewrite Z.mul_comm. apply Z.quot_mul. lia.
Qed.

Example py_int_truncates : py_int (PyFloat (-3 # 2)) = Return (-1).
Proof. reflexivity. Qed.

Example py_floor_rounds_down : py_floor (PyFloat (-3 # 2)) = Return (-2).
Proof. reflexivity. Qed.

(** * The hash provider *)

Section hash_provider_facts.
Context `{HashProvider}.

Lemma digest_update_app d (a b : bytes) :
  security.digest_update d (a ++ b) = security.digest_update (security.digest_update d a) b.
Proof. apply fold_left_app. Qed.

Lemma digest_update_concat (frags : list bytes) : ∀ d,
  fold_left security.digest_update frags d = security.digest_update d (concat frags).
Proof.
  induction frags as [|frag frags IH]; intros d; simpl.
  - reflexivity.
  - rewrite IH. symmetry. apply digest_update_app.
Qed.

Lemma low_memory_chunk_hash_concat (frags : list bytes) :
  security.low_memory_chunk_hash frags = security.chunk_hash (concat frags).
Proof.
  unfold security.low_memory_chunk_hash, security.chunk_hash.
  by rewrite digest_update_concat.
Qed.
End hash_provider_facts.

Lemma checksum16_render_nonempty : ∀ d : @digest checksum16, @digest_render checksum16 d ≠ "".
Proof. intros d. simpl. discriminate. Qed.

(** * ChunkRegistry: registration *)

Section registration_facts.
Import ChunkRegistry.
Context `{Constants} `{HashProvider}.

(** The call returns on a chunkable data type and a time bin that is a
    finite number and lands, once scaled, in the range of a datetime. *)
Lemma register_chunked_data_returns dt tb n t cp fc st pa su db :
  dt ∈ CHUNKABLE_FILES → py_int tb = Return n →
  fromtimestamp (PyInt (n * CHUNK_TIMESLICE_QUANTUM)) = Return t →
  register_chunked_data dt tb cp fc st pa su db
  = (Return (), create db true cp (security.chunk_hash fc) dt t st pa su).
Proof.
  intros Hin Hint Ht. unfold register_chunked_data.
  rewrite bool_decide_eq_false_2 by (intros Hn; by apply Hn).
  by rewrite Hint, Ht.
Qed.

Lemma register_chunked_data_inv dt tb cp fc st pa su db db' :
  register_chunked_data dt tb cp fc st pa su db = (Return (), db') →
  dt ∈ CHUNKABLE_FILES ∧
  ∃ n t, py_int tb = Return n ∧
         fromtimestamp (PyInt (n * CHUNK_TIMESLICE_QUANTUM)) = Return t ∧
         db' = create db true cp (security.chunk_hash fc) dt t st pa su.
Proof.
  unfold register_chunked_data. case_bool_decide as Hdt; [discriminate|].
  destruct (py_int tb) as [n|e]; [|discriminate].
  destruct (fromtimestamp _) as [t|e] eqn:Ht; [|discriminate].
  intros [= <-]. eauto 6.
Qed.

Lemma register_unchunked_data_inv dt tb cp st pa su db db' :
  register_unchunked_data dt tb cp st pa su db = (Return (), db') →
  (dt ∉ CHUNKABLE_FILES) ∧
  ∃ t, fromtimestamp tb = Return t ∧ db' = create db false cp "" dt t st pa su.
Proof.
  unfold register_unchunked_data. case_bool_decide as Hdt; [discriminate|].
  destruct (fromtimestamp tb) as [t|e]; [|discriminate].
  intros [= <-]. eauto.
Qed.

Lemma register_chunked_data_raises dt tb cp fc st pa su db e :
  fst (register_chunked_data dt tb cp fc st pa su db) = Raise e →
  snd (register_chunked_data dt tb cp fc st pa su db) = db.
Proof.
  unfold register_chunked_data. case_bool_decide; [done|].
  destruct (py_int tb); [|done].
  destruct (fromtimestamp _); done.
Qed.

Lemma register_unchunked_data_raises dt tb cp st pa su db e :
  fst (register_unchunked_data dt tb cp st pa su db) = Raise e →
  snd (register_unchunked_data dt tb cp st pa su db) = db.
Proof.
  unfold register_unchunked_data. case_bool_decide; [done|].
  destruct (fromtimestamp tb); simpl; done.
Qed.

(** C2: a data type of the chunkable set makes [register_unchunked_data]
    raise ChunkableDataTypeError, a data type outside it makes
    [register_chunked_data] raise UnchunkableDataTypeError, and either way
    the table is the one the call found: no record is created. *)
Theorem register_rejects_wrong_class dt :
  (dt ∈ CHUNKABLE_FILES →
     ∀ tb cp st pa su db,
       register_unchunked_data dt tb cp st pa su db = (Raise ChunkableDataTypeError, db)) ∧
  (dt ∉ CHUNKABLE_FILES →
     ∀ tb cp fc st pa su db,
       register_chunked_data dt tb cp fc st pa su db = (Raise UnchunkableDataTypeError, db)).
Proof.
  split; intros Hdt *.
  - unfold register_unchunked_data. by rewrite bool_decide_eq_true_2.
  - unfold register_chunked_data. by rewrite bool_decide_eq_true_2.
Qed.

(** C3 (amended): a successful [register_chunked_data] appends exactly one
    record; its time bin is [int(time_bin) * CHUNK_TIMESLICE_QUANTUM]
    converted to a timestamp, where [int] truncates toward zero, and that
    is the spec's [floor(timeBinRaw) * QUANTUM] whenever the raw value is
    an int, is not negative or has no fractional part; its hash is
    [chunk_hash(file_contents)], which is non-empty for a provider whose
    fingerprints are; and [is_chunkable] is true. *)
Theorem register_chunked_data_record dt tb cp fc st pa su db db' :
  (∀ d, digest_render d ≠ "") →
  register_chunked_data dt tb cp fc st pa su db = (Return (), db') →
  ∃ n r,
    py_int tb = Return n ∧ db' = db ++ [r] ∧
    fromtimestamp (PyInt (n * CHUNK_TIMESLICE_QUANTUM)) = Return (time_bin r) ∧
    (floor_is_trunc tb = true → spec_time_bin tb = Return (time_bin r)) ∧
    chunk_hash r = security.chunk_hash fc ∧ chunk_hash r ≠ "" ∧
    is_chunkable r = true ∧
    data_type r = dt ∧ chunk_path r = cp ∧
    study_id r = st ∧ participant_id r = pa ∧ survey_id r = su.
Proof.
  intros Hne (Hdt & n & t & Hn & Ht & ->)%register_chunked_data_inv.
  eexists n, _. split; [done|]. split; [reflexivity|]. simpl.
  repeat split; try done.
  - intros Hx. unfold spec_time_bin. by rewrite <-(py_int_floor _ Hx), Hn.
  - apply Hne.
Qed.

(** C9: the streamed hash of a sequence of fragments is the hash of their
    concatenation, so [low_memory_update_chunk_hash] on the fragments
    assigns and saves what [update_chunk_hash] does on the concatenation. *)
Theorem streamed_hash_equivalence (frags : list bytes) :
  security.low_memory_chunk_hash frags = security.chunk_hash (concat frags) ∧
  ∀ self db,
    low_memory_update_chunk_hash self frags db = update_chunk_hash self (concat frags) db.
Proof.
  split; [apply low_memory_chunk_hash_concat|].
  intros self db. unfold low_memory_update_chunk_hash, update_chunk_hash.
  by rewrite low_memory_chunk_hash_concat.
Qed.
End registration_facts.

Lemma example_chunkable dt :
  bool_decide (dt ∈ @CHUNKABLE_FILES example_constants) = true →
  dt ∈ @CHUNKABLE_FILES example_constants.
Proof. apply bool_decide_eq_true_1. Qed.

Lemma example_unchunkable dt :
  bool_decide (dt ∈ @CHUNKABLE_FILES example_constants) = false →
  dt ∉ @CHUNKABLE_FILES example_constants.
Proof. apply bool_decide_eq_false_1. Qed.

Lemma register_rejects_wrong_class_witness :
  @ChunkRegistry.register_unchunked_data example_constants "gps" (PyInt 0) "/raw/g" 1 2 None []
  = (Raise ChunkableDataTypeError, []) ∧
  @ChunkRegistry.register_chunked_data example_constants checksum16
     "audio" (PyInt 0) "/chunks/a" example_bytes 1 2 None []
  = (Raise UnchunkableDataTypeError, []).
Proof.
  split.
  - apply (proj1 (@register_rejects_wrong_class example_constants checksum16 "gps")).
    apply example_chunkable. vm_compute. reflexivity.
  - apply (proj2 (@register_rejects_wrong_class example_constants checksum16 "audio")).
    apply example_unchunkable. vm_compute. reflexivity.
Defined.

Lemma register_chunked_data_record_witness :
  ∃ n r,
    py_int (PyInt 1000) = Return n ∧
    [ {| ChunkRegistry.pk := 1; ChunkRegistry.is_chunkable := true;
         ChunkRegistry.chunk_path := "/chunks/x"; ChunkRegistry.chunk_hash := "efaa";
         ChunkRegistry.data_type := "accelerometer";
         ChunkRegistry.time_bin := 1000 * 3600 * 1000000;
         ChunkRegistry.study_id := 1; ChunkRegistry.participant_id := 2;
         ChunkRegistry.survey_id := None |} ] = [] ++ [r] ∧
    fromtimestamp (PyInt (n * 3600)) = Return (ChunkRegistry.time_bin r) ∧
    (floor_is_trunc (PyInt 1000) = true →
     @spec_time_bin example_constants (PyInt 1000) = Return (ChunkRegistry.time_bin r)) ∧
    ChunkRegistry.chunk_hash r = @security.chunk_hash checksum16 example_bytes ∧
    ChunkRegistry.chunk_hash r ≠ "" ∧
    ChunkRegistry.is_chunkable r = true ∧
    ChunkRegistry.data_type r = "accelerometer" ∧ ChunkRegistry.chunk_path r = "/chunks/x" ∧
    ChunkRegistry.study_id r = 1 ∧ ChunkRegistry.participant_id r = 2 ∧
    ChunkRegistry.survey_id r = None.
Proof.
  apply (@register_chunked_data_record example_constants checksum16
           "accelerometer" (PyInt 1000) "/chunks/x" example_bytes 1 2 None []).
  - apply checksum16_render_nonempty.
  - vm_compute. reflexivity.
Defined.

(** C3, as the spec words it, fails on a negative fractional raw time bin:
    [int(-1.5)] is [-1] where [floor(-1.5)] is [-2], so with a quantum of 3600
    the record lands in the bucket that starts at -3600 s, not -7200 s. *)
Lemma register_chunked_data_not_floor :
  ∃ r,
    @ChunkRegistry.register_chunked_data example_constants checksum16
       "accelerometer" (PyFloat (-3 # 2)) "/chunks/x" example_bytes 1 2 None []
    = (Return (), [r]) ∧
    ChunkRegistry.time_bin r = -3600 * 1000000 ∧
    @spec_time_bin example_constants (PyFloat (-3 # 2)) = Return (-7200 * 1000000) ∧
    @spec_time_bin example_constants (PyFloat (-3 # 2)) ≠ Return (ChunkRegistry.time_bin r).
Proof.
  eexists. split; [vm_compute; reflexivity|].
  split; [reflexivity|]. split; [reflexivity|]. vm_compute. discriminate.
Qed.

(** * ChunkRegistry: the record invariant *)

Section invariant_facts.
Import ChunkRegistry ChunkHistory.
Context `{Constants} `{HashProvider}.
Hypothesis fingerprint_nonempty : ∀ d, digest_render d ≠ "".

Lemma get_by_pk_Some key db self :
  get_by_pk key db = Some self → self ∈ db ∧ pk self = key.
Proof.
  intros [Hin Hpk]%find_some. split.
  - by apply list_elem_of_In.
  - by apply bool_decide_eq_true_1 in Hpk.
Qed.

Lemma Forall_save (P : t → Prop) self db :
  P self → Forall P db → Forall P (save self db).
Proof.
  intros Hself Hdb. unfold save. case_bool_decide.
  - apply Forall_fmap. eapply Forall_impl; [exact Hdb|].
    intros r Hr. simpl. by case_bool_decide.
  - apply Forall_app. split; [done|]. by apply Forall_singleton.
Qed.

Lemma chunk_hash_nonempty data : security.chunk_hash data ≠ "".
Proof. apply fingerprint_nonempty. Qed.

Lemma low_memory_chunk_hash_nonempty frags : security.low_memory_chunk_hash frags ≠ "".
Proof. apply fingerprint_nonempty. Qed.

Lemma weak_invariant_set_chunk_hash self h :
  h ≠ "" → weak_invariant self → weak_invariant (set_chunk_hash self h).
Proof. intros Hh [Hflag _]. split; [exact Hflag|]. by intros _. Qed.

Lemma record_invariant_set_chunk_hash self h :
  h ≠ "" → is_chunkable self = true → record_invariant self →
  record_invariant (set_chunk_hash self h).
Proof.
  intros Hh Hc [Hflag _]. split; [exact Hflag|].
  unfold type_matches_hash. simpl. split; [done|].
  intros _. by apply Hflag.
Qed.

Lemma record_invariant_weak r : record_invariant r → weak_invariant r.
Proof.
  intros [Hflag Hhash]. split; [done|].
  intros Hc. by apply Hhash, Hflag.
Qed.

Lemma record_invariant_registered_chunked dt k cp fc dtm st pa su :
  dt ∈ CHUNKABLE_FILES →
  record_invariant {| pk := k; is_chunkable := true; chunk_path := cp;
                      chunk_hash := security.chunk_hash fc; data_type := dt; time_bin := dtm;
                      study_id := st; participant_id := pa; survey_id := su |}.
Proof.
  intros Hdt. split; unfold flag_matches_type, type_matches_hash; simpl.
  - done.
  - split; [intros _; apply chunk_hash_nonempty|done].
Qed.

Lemma record_invariant_registered_unchunked dt k cp dtm st pa su :
  dt ∉ CHUNKABLE_FILES →
  record_invariant {| pk := k; is_chunkable := false; chunk_path := cp;
                      chunk_hash := ""; data_type := dt; time_bin := dtm;
                      study_id := st; participant_id := pa; survey_id := su |}.
Proof.
  intros Hdt. split; unfold flag_matches_type, type_matches_hash; simpl.
  - split; [done|]. intros Hin. by destruct Hdt.
  - split; [intros Hin; by destruct Hdt|]. intros Hne. by destruct Hne.
Qed.

(** A registration adds nothing or a record that satisfies the invariant. *)
Lemma registration_keeps (P : t → Prop) db o :
  (∀ r, record_invariant r → P r) →
  is_registration o = true → Forall P db → Forall P (run_op db o).
Proof.
  intros HP Hreg Hdb. destruct o as [dt tb cp fc st pa su|dt tb cp st pa su| |];
    try discriminate; simpl.
  - destruct (register_chunked_data dt tb cp fc st pa su db) as [[[]|e] db'] eqn:Hcall.
    + apply register_chunked_data_inv in Hcall as (Hdt & n & t & _ & _ & ->). simpl.
      apply Forall_app. split; [done|]. apply Forall_singleton, HP.
      by apply record_invariant_registered_chunked.
    + pose proof (register_chunked_data_raises dt tb cp fc st pa su db e) as Hsame.
      rewrite Hcall in Hsame. simpl in *. by rewrite Hsame.
  - destruct (register_unchunked_data dt tb cp st pa su db) as [[[]|e] db'] eqn:Hcall.
    + apply register_unchunked_data_inv in Hcall as (Hdt & n & _ & ->). simpl.
      apply Forall_app. split; [done|]. apply Forall_singleton, HP.
      by apply record_invariant_registered_unchunked.
    + pose proof (register_unchunked_data_raises dt tb cp st pa su db e) as Hsame.
      rewrite Hcall in Hsame. simpl in *. by rewrite Hsame.
Qed.

Lemma weak_invariant_step db o :
  Forall weak_invariant db → Forall weak_invariant (run_op db o).
Proof.
  intros Hdb. destruct (is_registration o) eqn:Hreg.
  - apply registration_keeps; auto using record_invariant_weak.
  - destruct o as [| |key data|key frags]; try discriminate; simpl;
      destruct (get_by_pk key db) as [self|] eqn:Hget; try done;
      apply get_by_pk_Some in Hget as [Hin _];
      apply Forall_save; try done;
      apply weak_invariant_set_chunk_hash;
      auto using chunk_hash_nonempty, low_memory_chunk_hash_nonempty;
      by eapply Forall_forall in Hdb.
Qed.

Lemma record_invariant_step db o :
  targets_chunkable db o = true →
  Forall record_invariant db → Forall record_invariant (run_op db o).
Proof.
  intros Htarget Hdb. destruct (is_registration o) eqn:Hreg.
  - apply registration_keeps; auto.
  - destruct o as [| |key data|key frags]; try discriminate; simpl in *;
      destruct (get_by_pk key db) as [self|] eqn:Hget; try done;
      apply get_by_pk_Some in Hget as [Hin _];
      apply Forall_save; try done;
      apply record_invariant_set_chunk_hash;
      auto using chunk_hash_nonempty, low_memory_chunk_hash_nonempty;
      by eapply Forall_forall in Hdb.
Qed.

Lemma weak_invariant_run os : ∀ db,
  Forall weak_invariant db → Forall weak_invariant (run_ops os db).
Proof.
  induction os as [|o os IH]; intros db Hdb; simpl; [done|].
  apply IH. by apply weak_invariant_step.
Qed.

Lemma record_invariant_run os : ∀ db,
  well_targeted os db = true →
  Forall record_invariant db → Forall record_invariant (run_ops os db).
Proof.
  induction os as [|o os IH]; intros db Hos Hdb; simpl in *; [done|].
  apply andb_true_iff in Hos as [Ho Hos].
  apply IH; [done|]. by apply record_invariant_step.
Qed.

Lemma registrations_well_targeted os : ∀ db,
  forallb is_registration os = true → well_targeted os db = true.
Proof.
  induction os as [|o os IH]; intros db Hos; simpl in *; [done|].
  apply andb_true_iff in Hos as [Ho Hos]. rewrite IH by done.
  by destruct o.
Qed.

(** C4 (amended): starting from an empty registry, after every history of
    registrations and hash updates every record has [is_chunkable] true
    exactly when its data type is chunkable, and every chunkable record has
    a non-empty hash; and when every hash update of the history was aimed at
    a chunkable record (in particular when the history is registrations
    only) every record satisfies the whole invariant. *)
Theorem record_invariant_history os :
  Forall (fun r => flag_matches_type r ∧ chunkable_has_hash r) (run_ops os []) ∧
  (well_targeted os [] = true → Forall record_invariant (run_ops os [])) ∧
  (forallb is_registration os = true → Forall record_invariant (run_ops os [])).
Proof.
  split; [by apply weak_invariant_run|].
  split.
  - intros Hos. by apply record_invariant_run.
  - intros Hos. apply record_invariant_run; [|done].
    by apply registrations_well_targeted.
Qed.
End invariant_facts.

Lemma record_invariant_history_witness :
  Forall (fun r => @ChunkHistory.flag_matches_type example_constants r ∧
                   ChunkHistory.chunkable_has_hash r)
         (@ChunkHistory.run_ops example_constants checksum16 example_history []) ∧
  Forall (@ChunkHistory.record_invariant example_constants)
         (@ChunkHistory.run_ops example_constants checksum16 example_history []).
Proof.
  destruct (@record_invariant_history example_constants checksum16
              checksum16_render_nonempty example_history) as (Hweak & Hfull & _).
  split; [exact Hweak|]. apply Hfull. vm_compute. reflexivity.
Defined.

(** C4, as the spec words it, fails after a hash update of a record that is
    not chunkable: [update_chunk_hash] assigns the hash whatever the record
    is, and leaves a record with [is_chunkable] false, a data type outside
    the chunkable set and a non-empty hash. *)
Lemma record_invariant_broken_by_update :
  ¬ Forall (@ChunkHistory.record_invariant example_constants)
      (@ChunkHistory.run_ops example_constants checksum16
         [ ChunkHistory.register_unchunked "audio" (PyInt 0) "/raw/a" 1 2 None;
           ChunkHistory.update_hash 1 example_bytes ] []).
Proof.
  assert (@ChunkHistory.run_ops example_constants checksum16
            [ ChunkHistory.register_unchunked "audio" (PyInt 0) "/raw/a" 1 2 None;
              ChunkHistory.update_hash 1 example_bytes ] []
          = [ {| ChunkRegistry.pk := 1; ChunkRegistry.is_chunkable := false;
                 ChunkRegistry.chunk_path := "/raw/a"; ChunkRegistry.chunk_hash := "efaa";
                 ChunkRegistry.data_type := "audio"; ChunkRegistry.time_bin := 0;
                 ChunkRegistry.study_id := 1; ChunkRegistry.participant_id := 2;
                 ChunkRegistry.survey_id := None |} ]) as ->
    by (vm_compute; reflexivity).
  intros [_ [_ Hhash]]%Forall_singleton.
  apply (example_unchunkable "audio"); [vm_compute; reflexivity|].
  apply Hhash. simpl. discriminate.
Qed.

(** * FileProcessLock *)

Section lock_facts.
Import FileProcessLock.

Lemma run_call_refines s c :
  run_call (table_of_state s) c = table_of_state (spec_call s c).
Proof. by destruct c, s. Qed.

Lemma run_calls_refines cs : ∀ s,
  run_calls cs (table_of_state s) = table_of_state (spec_calls cs s).
Proof.
  induction cs as [|c cs IH]; intros s; simpl; [done|].
  unfold run_calls, spec_calls in *. simpl. by rewrite run_call_refines, IH.
Qed.

Lemma table_of_state_length s : (length (table_of_state s) ≤ 1)%nat.
Proof. destruct s; simpl; lia. Qed.

Lemma islocked_table_of_state s :
  islocked (table_of_state s) = match s with LOCKED _ => true | UNLOCKED => false end.
Proof. by destruct s. Qed.

(** C5: starting from zero records, every sequence of acquire, release,
    is_locked and age calls leaves at most one lock record (it leaves the
    table of the state the spec's two-state machine is in); [lock] inserts
    its record when the table is empty and leaves a table that has a row as
    it is, raising FileProcessingLockedError; [unlock] leaves no row. *)
Theorem at_most_one_lock_record cs :
  (length (run_calls cs []) ≤ 1)%nat ∧
  run_calls cs [] = table_of_state (spec_calls cs UNLOCKED) ∧
  (∀ now, lock now [] = (Return (), [ {| lock_time := Some now |} ])) ∧
  (∀ now r db, lock now (r :: db) = (Raise FileProcessingLockedError, r :: db)) ∧
  (∀ db, unlock db = (Return (), [])).
Proof.
  pose proof (run_calls_refines cs UNLOCKED) as Href. simpl in Href.
  split; [rewrite Href; apply table_of_state_length|].
  split; [exact Href|]. done.
Qed.

(** C7: after any sequence of calls on an initially unlocked lock,
    [islocked] tells whether the lock is held, and [get_time_since_locked]
    returns the current time minus the lock time of the holder when the lock
    is held, and fails when it is not: there is then no last record, and
    reading [lock_time] off [None] raises (the AttributeError that the spec
    calls NoActiveLock). *)
Theorem get_time_since_locked_spec cs now :
  islocked (run_calls cs [])
  = match spec_calls cs UNLOCKED with
    | LOCKED _ => true
    | UNLOCKED => false
    end ∧
  get_time_since_locked now (run_calls cs [])
  = match spec_calls cs UNLOCKED with
    | LOCKED lockTime => Return (now - lockTime)
    | UNLOCKED => Raise AttributeError
    end.
Proof.
  pose proof (run_calls_refines cs UNLOCKED) as Href. simpl in Href.
  rewrite Href. split; [apply islocked_table_of_state|].
  by destruct (spec_calls cs UNLOCKED).
Qed.

Example age_after_acquire :
  get_time_since_locked 5000000 (run_calls [acquire 2000000; is_locked; acquire 3000000] [])
  = Return 3000000.
Proof. reflexivity. Qed.

Example age_after_release :
  get_time_since_locked 5000000 (run_calls [acquire 2000000; release] [])
  = Raise AttributeError.
Proof. reflexivity. Qed.

(** ** Two workers *)

(** A worker that is not interrupted between its two steps does what [lock]
    does. *)
Lemma lock_step_twice now db :
  let '(pc1, db1) := lock_step now before_check db in
  let '(pc2, db2) := lock_step now pc1 db1 in
  (pc2, db2) = (finished (fst (lock now db)), snd (lock now db)).
Proof. by destruct db. Qed.

Lemma system_step_consistent now_a now_b s w :
  consistent s → consistent (system_step now_a now_b s w).
Proof.
  destruct s as [pa pb db]. unfold consistent. simpl.
  intros (Hlen & Ha & Hb & Hfa & Hfb).
  destruct w; simpl.
  - destruct pa as [|[]|[[]|e]]; simpl in *; rewrite ?length_app; simpl;
      repeat split; try done; try lia; try (by intros _; destruct db);
      try (by destruct db).
  - destruct pb as [|[]|[[]|e]]; simpl in *; rewrite ?length_app; simpl;
      repeat split; try done; try lia; try (by intros _; destruct db);
      try (by destruct db).
Qed.

Lemma run_schedule_consistent now_a now_b sched : ∀ s,
  consistent s → consistent (run_schedule now_a now_b sched s).
Proof.
  induction sched as [|w sched IH]; intros s Hs; simpl; [done|].
  apply IH. by apply system_step_consistent.
Qed.

Lemma initial_consistent : consistent (initial []).
Proof. unfold consistent. simpl. repeat split; done. Qed.

(** Whatever the schedule, once both workers are through at least one of
    them holds the lock, a worker that does not was told
    FileProcessingLockedError, and the table has one row per holder. *)
Lemma two_workers_any_schedule now_a now_b sched :
  let s := run_schedule now_a now_b sched (initial []) in
  is_finished (pc_a s) = true → is_finished (pc_b s) = true →
  succeeded (pc_a s) || succeeded (pc_b s) = true ∧
  (succeeded (pc_a s) = false → already_locked (pc_a s) = true) ∧
  (succeeded (pc_b s) = false → already_locked (pc_b s) = true) ∧
  length (store s) = (Nat.b2n (succeeded (pc_a s)) + Nat.b2n (succeeded (pc_b s)))%nat.
Proof.
  intros s Hfa Hfb.
  destruct (run_schedule_consistent now_a now_b sched _ initial_consistent)
    as (Hlen & Ha & Hb & Hra & Hrb).
  fold s in Hlen, Ha, Hb, Hra, Hrb.
  specialize (Hra Hfa). specialize (Hrb Hfb).
  repeat split; try done.
  - destruct (succeeded (pc_a s)) eqn:Hsa; [done|].
    destruct (succeeded (pc_b s)) eqn:Hsb; [done|]. simpl in *.
    destruct (pc_a s) as [|[]|[[]|e]]; try done.
    destruct (store s); [|done]. by destruct Ha.
  - intros Hs. by rewrite Hs in Hra.
  - intros Hs. by rewrite Hs in Hrb.
Qed.

(** Run one after the other, the two calls exclude each other. *)
Lemma serial_workers_exclude now_a now_b :
  let s := run_schedule now_a now_b serial_schedule (initial []) in
  succeeded (pc_a s) = true ∧ already_locked (pc_b s) = true ∧
  store s = [ {| lock_time := Some now_a |} ].
Proof. done. Qed.

(** C1, on the code: on the schedule where both workers run the check of
    line 120 before either runs the insert of line 123, both see an
    unlocked table, both calls of [lock] return, neither raises
    FileProcessingLockedError, and the table holds two lock records. *)
Theorem racing_workers_both_lock now_a now_b :
  let s := run_schedule now_a now_b racing_schedule (initial []) in
  succeeded (pc_a s) = true ∧ succeeded (pc_b s) = true ∧
  already_locked (pc_a s) = false ∧ already_locked (pc_b s) = false ∧
  store s = [ {| lock_time := Some now_a |}; {| lock_time := Some now_b |} ] ∧
  length (store s) = 2%nat.
Proof. done. Qed.
End lock_facts.

(** * FileToProcess *)

Section queue_facts.
Import FileToProcess.

Lemma prefix_substring s : ∀ n, String.prefix (String.substring 0 n s) s = true.
Proof.
  induction s as [|c s IH]; intros [|n]; simpl; try done.
  destruct (ascii_dec c c); [apply IH|done].
Qed.

(** The test of line 108 holds only of a path that starts with the
    identifier, whatever the length of the identifier. *)
Lemma slice_equal_prefix file_path study_object_id :
  slice_to_24 file_path = study_object_id → String.prefix study_object_id file_path = true.
Proof. intros <-. apply prefix_substring. Qed.

(** For an identifier of 24 characters the test is the prefix test. *)
Lemma slice_equal_iff_prefix file_path study_object_id :
  String.length study_object_id = 24%nat →
  slice_to_24 file_path = study_object_id ↔ String.prefix study_object_id file_path = true.
Proof.
  intros Hlen. unfold slice_to_24. rewrite <-Hlen. symmetry. apply prefix_correct.
Qed.

(** C6 (amended): for a study that exists, a path that does not start
    with the study's public identifier is stored as the identifier, a
    slash and the path; a path that starts with it is stored unchanged
    when the identifier is 24 characters long, the length the slice of
    line 108 compares. *)
Theorem append_file_for_processing_path studies file_path study_object_id pa db study_pk :
  Study.get_pk studies study_object_id = Return study_pk →
  (String.prefix study_object_id file_path = false →
   append_file_for_processing studies file_path study_object_id pa db
   = (Return (), db ++ [ {| s3_file_path := study_object_id +:+ "/" +:+ file_path;
                            study_id := study_pk; participant_id := pa |} ])) ∧
  (String.length study_object_id = 24%nat →
   String.prefix study_object_id file_path = true →
   append_file_for_processing studies file_path study_object_id pa db
   = (Return (), db ++ [ {| s3_file_path := file_path;
                            study_id := study_pk; participant_id := pa |} ])).
Proof.
  intros Hget. unfold append_file_for_processing. rewrite Hget. split.
  - intros Hpre. rewrite bool_decide_eq_false_2; [done|].
    intros Heq%slice_equal_prefix. congruence.
  - intros Hlen Hpre. rewrite bool_decide_eq_true_2; [done|].
    by apply slice_equal_iff_prefix.
Qed.

(** The second scenario of the spec, on the code. *)
Example enqueue_bare_path :
  append_file_for_processing example_studies "device.csv" "abc123" 2 []
  = (Return (), [ {| s3_file_path := "abc123/device.csv"; study_id := 8;
                     participant_id := 2 |} ]).
Proof. reflexivity. Qed.
End queue_facts.

Lemma append_file_for_processing_path_witness :
  FileToProcess.append_file_for_processing example_studies
    "device.csv" "5873fe38644ad7557b168e43" 2 []
  = (Return (), [ {| FileToProcess.s3_file_path := "5873fe38644ad7557b168e43/device.csv";
                     FileToProcess.study_id := 7; FileToProcess.participant_id := 2 |} ]) ∧
  FileToProcess.append_file_for_processing example_studies
    "5873fe38644ad7557b168e43/device.csv" "5873fe38644ad7557b168e43" 2 []
  = (Return (), [ {| FileToProcess.s3_file_path := "5873fe38644ad7557b168e43/device.csv";
                     FileToProcess.study_id := 7; FileToProcess.participant_id := 2 |} ]).
Proof.
  split.
  - apply (proj1 (append_file_for_processing_path example_studies
                    "device.csv" "5873fe38644ad7557b168e43" 2 [] 7 eq_refl)).
    reflexivity.
  - apply (proj2 (append_file_for_processing_path example_studies
                    "5873fe38644ad7557b168e43/device.csv" "5873fe38644ad7557b168e43" 2 [] 7
                    eq_refl)).
    + reflexivity.
    + reflexivity.
Defined.

(** C6, as the spec words it, fails on the spec's own first scenario: the
    identifier "abc123" is six characters long, the first 24 characters of
    "abc123/device.csv" are the whole path, the comparison of line 108 fails,
    and the path is stored with the identifier in front of it a second time. *)
Lemma enqueue_prefixed_path_not_kept :
  String.prefix "abc123" "abc123/device.csv" = true ∧
  FileToProcess.append_file_for_processing example_studies "abc123/device.csv" "abc123" 2 []
  = (Return (), [ {| FileToProcess.s3_file_path := "abc123/abc123/device.csv";
                     FileToProcess.study_id := 8; FileToProcess.participant_id := 2 |} ]) ∧
  FileToProcess.append_file_for_processing example_studies "abc123/device.csv" "abc123" 2 []
  ≠ (Return (), [ {| FileToProcess.s3_file_path := "abc123/device.csv";
                     FileToProcess.study_id := 8; FileToProcess.participant_id := 2 |} ]).
Proof. split; [reflexivity|]. split; [reflexivity|]. vm_compute. discriminate. Qed.

(** * ChunkRegistry.get_chunks_time_range *)

Section query_facts.
Import ChunkRegistry ChunkQuery.

(** C8 (amended): [get_chunks_time_range] returns exactly the records of the
    table, in table order, whose study matches, whose participant's
    patient id is in [user_ids] when that list is provided and not empty,
    whose data type is in [data_types] when that list is provided and not
    empty, and whose time bin is at least [start] and at most [end], each
    bound included, when the bound is provided and truthy. *)
Theorem get_chunks_time_range_exact participants study_id0 user_ids data_types start end_ db :
  get_chunks_time_range participants study_id0 user_ids data_types start end_ db
  = List.filter (in_range_when_truthy participants study_id0 user_ids data_types start end_) db.
Proof.
  unfold get_chunks_time_range, objects_filter, in_range_when_truthy, in_range_as_specified.
  apply filter_ext. intros r.
  destruct user_ids as [[|u us]|], data_types as [[|d ds]|], start, end_; simpl;
    rewrite ?andb_true_r, ?andb_assoc; reflexivity.
Qed.

(** C10: a filter that is provided but falsy restricts nothing: an empty
    [user_ids] or [data_types] list, or a zero [start] or [end], gives the
    answer that leaving the argument out gives, and with all four falsy
    the answer is every record of the study. *)
Theorem falsy_filters_are_absent participants study_id0 user_ids data_types start end_ db :
  get_chunks_time_range participants study_id0 (Some []) data_types start end_ db
  = get_chunks_time_range participants study_id0 None data_types start end_ db ∧
  get_chunks_time_range participants study_id0 user_ids (Some []) start end_ db
  = get_chunks_time_range participants study_id0 user_ids None start end_ db ∧
  get_chunks_time_range participants study_id0 user_ids data_types ArgZero end_ db
  = get_chunks_time_range participants study_id0 user_ids data_types ArgNone end_ db ∧
  get_chunks_time_range participants study_id0 user_ids data_types start ArgZero db
  = get_chunks_time_range participants study_id0 user_ids data_types start ArgNone db ∧
  get_chunks_time_range participants study_id0 (Some []) (Some []) ArgZero ArgZero db
  = List.filter (fun r => bool_decide (study_id r = study_id0)) db.
Proof.
  repeat split; try reflexivity.
  unfold get_chunks_time_range, objects_filter. simpl.
  apply filter_ext. intros r. apply andb_true_r.
Qed.

Example get_range_time_window :
  get_chunks_time_range example_participants 1 None None
    (ArgDatetime 0) (ArgDatetime (1000 * 3600 * 1000000)) example_registry
  = example_registry.
Proof. reflexivity. Qed.

Example get_range_before_window :
  get_chunks_time_range example_participants 1 None None
    ArgNone (ArgDatetime (1000 * 3600 * 1000000 - 1)) example_registry
  = [].
Proof. reflexivity. Qed.
End query_facts.

(** C8, as the spec words it, fails on a filter that is provided and empty:
    with [user_ids = []] the spec keeps the records whose participant is in
    the empty set, that is none, and the code returns every record of the
    study. *)
Lemma empty_user_ids_not_restricting :
  ChunkQuery.get_chunks_time_range example_participants 1 (Some []) None
    ChunkQuery.ArgNone ChunkQuery.ArgNone example_registry
  = example_registry ∧
  List.filter (ChunkQuery.in_range_as_specified example_participants 1 (Some []) None None None)
    example_registry
  = [] ∧
  ChunkQuery.get_chunks_time_range example_participants 1 (Some []) None
    ChunkQuery.ArgNone ChunkQuery.ArgNone example_registry
  ≠ List.filter (ChunkQuery.in_range_as_specified example_participants 1 (Some []) None None None)
      example_registry.
Proof. split; [reflexivity|]. split; [reflexivity|]. vm_compute. discriminate. Qed.

(** * More on FileProcessLock *)

Section lock_more.
Import FileProcessLock.

Lemma islocked_false_nil (db : table) : islocked db = false → db = [].
Proof. by destruct db. Qed.

(** The lock is not re-entrant and a refused call does not refresh it: on
    the table a successful [lock] leaves, a second [lock] raises
    FileProcessingLockedError and changes nothing, so that
    [get_time_since_locked] keeps counting from the first acquisition. *)
Theorem lock_refused_keeps_first_time db t1 t2 now :
  islocked db = false →
  fst (lock t1 db) = Return () ∧
  lock t2 (snd (lock t1 db)) = (Raise FileProcessingLockedError, snd (lock t1 db)) ∧
  get_time_since_locked now (snd (lock t2 (snd (lock t1 db)))) = Return (now - t1).
Proof. intros ->%islocked_false_nil. done. Qed.

(** [unlock] knows no owner: whatever rows the table holds, several of them
    included, it leaves none; a second [unlock] is the same no-op; and the
    next [lock] succeeds and leaves one record, whose age is what
    [get_time_since_locked] then reports. *)
Theorem unlock_frees_any_table db t now :
  unlock db = (Return (), []) ∧
  unlock (snd (unlock db)) = unlock db ∧
  islocked (snd (unlock db)) = false ∧
  get_time_since_locked now (snd (unlock db)) = Raise AttributeError ∧
  lock t (snd (unlock db)) = (Return (), [ {| lock_time := Some t |} ]) ∧
  get_time_since_locked now (snd (lock t (snd (unlock db)))) = Return (now - t).
Proof. done. Qed.

(** On a table with several lock records, which a race leaves, the age is
    that of the record inserted last, and [lock] still refuses. *)
Theorem age_is_of_last_record db t t' now :
  get_time_since_locked now (db ++ [ {| lock_time := Some t |} ]) = Return (now - t) ∧
  lock t' (db ++ [ {| lock_time := Some t |} ])
  = (Raise FileProcessingLockedError, db ++ [ {| lock_time := Some t |} ]).
Proof.
  split.
  - unfold get_time_since_locked. by rewrite last_snoc.
  - by destruct db.
Qed.
End lock_more.

Lemma lock_refused_keeps_first_time_witness :
  fst (FileProcessLock.lock 2000000 []) = Return () ∧
  FileProcessLock.lock 3000000 (snd (FileProcessLock.lock 2000000 []))
  = (Raise FileProcessingLockedError, snd (FileProcessLock.lock 2000000 [])) ∧
  FileProcessLock.get_time_since_locked 5000000
    (snd (FileProcessLock.lock 3000000 (snd (FileProcessLock.lock 2000000 []))))
  = Return (5000000 - 2000000).
Proof. apply (lock_refused_keeps_first_time [] 2000000 3000000 5000000). reflexivity. Defined.

Lemma two_workers_any_schedule_witness :
  let s := FileProcessLock.run_schedule 2000000 2000001
             [FileProcessLock.worker_b; FileProcessLock.worker_a; FileProcessLock.worker_a;
              FileProcessLock.worker_b; FileProcessLock.worker_b]
             (FileProcessLock.initial []) in
  FileProcessLock.succeeded (FileProcessLock.pc_a s)
  || FileProcessLock.succeeded (FileProcessLock.pc_b s) = true ∧
  (FileProcessLock.succeeded (FileProcessLock.pc_a s) = false →
   FileProcessLock.already_locked (FileProcessLock.pc_a s) = true) ∧
  (FileProcessLock.succeeded (FileProcessLock.pc_b s) = false →
   FileProcessLock.already_locked (FileProcessLock.pc_b s) = true) ∧
  length (FileProcessLock.store s)
  = (Nat.b2n (FileProcessLock.succeeded (FileProcessLock.pc_a s))
     + Nat.b2n (FileProcessLock.succeeded (FileProcessLock.pc_b s)))%nat.
Proof.
  apply (two_workers_any_schedule 2000000 2000001
           [FileProcessLock.worker_b; FileProcessLock.worker_a; FileProcessLock.worker_a;
            FileProcessLock.worker_b; FileProcessLock.worker_b]).
  - reflexivity.
  - reflexivity.
Defined.

(** * More on ChunkRegistry: what a registration does *)

Lemma quot_floor_or_next a b : 0 < b → Z.quot a b = a / b ∨ Z.quot a b = a / b + 1.
Proof.
  intros Hb.
  pose proof (Z.quot_rem' a b) as Hq.
  pose proof (Z.div_mod a b ltac:(lia)) as Hd.
  pose proof (Z.mod_pos_bound a b Hb) as Hm.
  destruct (Z.le_gt_cases 0 a) as [Ha|Ha].
  - pose proof (Z.rem_bound_pos a b Ha Hb). left. nia.
  - pose proof (Z.rem_bound_pos (- a) b ltac:(lia) Hb) as Hr.
    pose proof (Z.rem_opp_l (- a) b ltac:(lia)) as Ho.
    rewrite Z.opp_involutive in Ho.
    destruct (Z.eq_dec (Z.rem a b) 0); [left|right]; nia.
Qed.

Lemma py_int_floor_or_next x n :
  py_int x = Return n → ∃ m, py_floor x = Return m ∧ (n = m ∨ n = m + 1).
Proof.
  destruct x as [z|[a d]| |]; simpl; try discriminate.
  - intros [= <-]. eauto.
  - intros [= <-]. eexists. split; [done|].
    unfold Qfloor. apply quot_floor_or_next. lia.
Qed.

Lemma fromtimestamp_int_Return z t : fromtimestamp (PyInt z) = Return t → t = z * 1000000.
Proof. simpl. unfold checked_datetime. case_match; [|discriminate]. by intros [= <-]. Qed.

Section registration_more.
Import ChunkRegistry.
Context `{Constants} `{HashProvider}.

Lemma next_pk_above (db : table) r : r ∈ db → pk r < next_pk db.
Proof.
  unfold next_pk. induction db as [|x db IH]; [by intros ?%elem_of_nil|].
  rewrite fmap_cons. cbn [foldr].
  intros [->|Hin]%elem_of_cons; [lia|]. specialize (IH Hin). lia.
Qed.

Lemma next_pk_fresh (db : table) : next_pk db ∉ pk <$> db.
Proof.
  intros (r & Heq & Hin%next_pk_above)%list_elem_of_fmap. lia.
Qed.

(** A registration either raises and leaves the table as it found it, or
    returns and appends exactly one record, under a key no record of the
    table has: a failed call persists nothing, whatever the exception. *)
Theorem registration_all_or_nothing dt tb cp fc st pa su db :
  ((∃ e, register_chunked_data dt tb cp fc st pa su db = (Raise e, db)) ∨
   (∃ r, register_chunked_data dt tb cp fc st pa su db = (Return (), db ++ [r]) ∧
         pk r ∉ pk <$> db)) ∧
  ((∃ e, register_unchunked_data dt tb cp st pa su db = (Raise e, db)) ∨
   (∃ r, register_unchunked_data dt tb cp st pa su db = (Return (), db ++ [r]) ∧
         pk r ∉ pk <$> db)).
Proof.
  split.
  - destruct (register_chunked_data dt tb cp fc st pa su db) as [[[]|e] db'] eqn:Hcall.
    + right. apply register_chunked_data_inv in Hcall as (_ & n & t & _ & _ & ->).
      eexists. split; [reflexivity|]. apply next_pk_fresh.
    + left. exists e.
      pose proof (register_chunked_data_raises dt tb cp fc st pa su db e) as Hsame.
      rewrite Hcall in Hsame. simpl in Hsame. by rewrite Hsame.
  - destruct (register_unchunked_data dt tb cp st pa su db) as [[[]|e] db'] eqn:Hcall.
    + right. apply register_unchunked_data_inv in Hcall as (_ & t & _ & ->).
      eexists. split; [reflexivity|]. apply next_pk_fresh.
    + left. exists e.
      pose proof (register_unchunked_data_raises dt tb cp st pa su db e) as Hsame.
      rewrite Hcall in Hsame. simpl in Hsame. by rewrite Hsame.
Qed.



(** Where [int] and the floor part: the bucket of a successful
    [register_chunked_data] is the bucket of the floor of the raw time bin or
    the one after it, never another. *)
Theorem chunked_time_bin_floor_or_next dt tb cp fc st pa su db db' :
  register_chunked_data dt tb cp fc st pa su db = (Return (), db') →
  ∃ m r,
    py_floor tb = Return m ∧ db' = db ++ [r] ∧
    (time_bin r = m * CHUNK_TIMESLICE_QUANTUM * 1000000 ∨
     time_bin r = (m + 1) * CHUNK_TIMESLICE_QUANTUM * 1000000).
Proof.
  intros (_ & n & t & Hn & Ht & ->)%register_chunked_data_inv.
  apply py_int_floor_or_next in Hn as (m & Hm & Hnm).
  apply fromtimestamp_int_Return in Ht as ->.
  eexists m, _. split; [done|]. split; [reflexivity|]. simpl.
  destruct Hnm as [->| ->]; auto.
Qed.
End registration_more.

(** * More on ChunkRegistry: keys, updates and queries along a history *)

Lemma NoDup_fmap_elem_inj {A B} (f : A → B) (l : list A) x y :
  NoDup (f <$> l) → x ∈ l → y ∈ l → f x = f y → x = y.
Proof.
  induction l as [|a l IH]; [by intros _ ?%elem_of_nil|].
  rewrite fmap_cons. intros [Hnotin Hnd]%NoDup_cons.
  intros [->|Hx]%elem_of_cons [->|Hy]%elem_of_cons Hf; auto.
  - destruct Hnotin. rewrite Hf. by apply list_elem_of_fmap_2.
  - destruct Hnotin. rewrite <-Hf. by apply list_elem_of_fmap_2.
Qed.

Lemma find_fmap_stable {A} (p : A → bool) (g : A → A) (l : list A) :
  (∀ x, p (g x) = p x) → List.find p (g <$> l) = g <$> List.find p l.
Proof.
  intros Hp. induction l as [|a l IH]; simpl; [done|].
  rewrite Hp. by destruct (p a).
Qed.



Section history_more.
Import ChunkRegistry ChunkHistory ChunkQuery.
Context `{Constants} `{HashProvider}.

Lemma pk_rehash key h r : pk (rehash key h r) = pk r.
Proof. unfold rehash. by case_bool_decide. Qed.

Lemma same_but_hash_rehash key h r : same_but_hash r (rehash key h r).
Proof. unfold rehash, same_but_hash. by case_bool_decide. Qed.

Lemma same_but_hash_trans r1 r2 r3 :
  same_but_hash r1 r2 → same_but_hash r2 r3 → same_but_hash r1 r3.
Proof. unfold same_but_hash. intros ??. destruct_and!. repeat split; congruence. Qed.

Lemma same_but_hash_refl r : same_but_hash r r.
Proof. by repeat split. Qed.

Lemma fmap_pk_rehash key h (db : table) : pk <$> (rehash key h <$> db) = pk <$> db.
Proof.
  rewrite <-list_fmap_compose. apply Forall_fmap_ext, Forall_forall.
  intros r _. apply pk_rehash.
Qed.

(** In a table without two rows under one key, saving a row of the table
    with a new hash rewrites that row and no other. *)
Lemma save_set_chunk_hash self h (db : table) :
  NoDup (pk <$> db) → self ∈ db →
  save (set_chunk_hash self h) db = rehash (pk self) h <$> db.
Proof.
  intros Hnd Hin. unfold save. simpl.
  rewrite bool_decide_eq_true_2 by (by apply list_elem_of_fmap_2).
  apply Forall_fmap_ext, Forall_forall. intros r Hr. unfold rehash.
  case_bool_decide as Hpk; [|done].
  by rewrite (NoDup_fmap_elem_inj pk db r self Hnd Hr Hin Hpk).
Qed.

(** What one operation does to a table with distinct keys: nothing, one more
    record under a fresh key, or a new hash for one record. *)
Lemma run_op_shape db o :
  NoDup (pk <$> db) →
  run_op db o = db ∨
  (∃ r, run_op db o = db ++ [r] ∧ pk r ∉ pk <$> db) ∨
  (∃ key h, run_op db o = rehash key h <$> db).
Proof.
  intros Hnd. destruct o as [dt tb cp fc st pa su|dt tb cp st pa su|key data|key frags]; simpl.
  - destruct (register_chunked_data dt tb cp fc st pa su db) as [[[]|e] db'] eqn:Hcall.
    + apply register_chunked_data_inv in Hcall as (_ & n & t & _ & _ & ->).
      right; left. eexists. split; [reflexivity|]. apply next_pk_fresh.
    + pose proof (register_chunked_data_raises dt tb cp fc st pa su db e) as Hsame.
      rewrite Hcall in Hsame. left. by apply Hsame.
  - destruct (register_unchunked_data dt tb cp st pa su db) as [[[]|e] db'] eqn:Hcall.
    + apply register_unchunked_data_inv in Hcall as (_ & t & _ & ->).
      right; left. eexists. split; [reflexivity|]. apply next_pk_fresh.
    + pose proof (register_unchunked_data_raises dt tb cp st pa su db e) as Hsame.
      rewrite Hcall in Hsame. left. by apply Hsame.
  - destruct (get_by_pk key db) as [self|] eqn:Hget; [|by left].
    apply get_by_pk_Some in Hget as [Hin _]. right; right. simpl.
    eexists _, _. by apply save_set_chunk_hash.
  - destruct (get_by_pk key db) as [self|] eqn:Hget; [|by left].
    apply get_by_pk_Some in Hget as [Hin _]. right; right. simpl.
    eexists _, _. by apply save_set_chunk_hash.
Qed.

Lemma run_op_NoDup db o : NoDup (pk <$> db) → NoDup (pk <$> run_op db o).
Proof.
  intros Hnd. destruct (run_op_shape db o Hnd) as [->|[(r & -> & Hr)|(key & h & ->)]].
  - done.
  - rewrite fmap_app. apply NoDup_app. split; [done|]. split.
    + intros k Hk [->|[]%elem_of_nil]%elem_of_cons. done.
    + apply NoDup_singleton.
  - by rewrite fmap_pk_rehash.
Qed.

Lemma run_ops_NoDup os : ∀ db, NoDup (pk <$> db) → NoDup (pk <$> run_ops os db).
Proof.
  induction os as [|o os IH]; intros db Hnd; simpl; [done|].
  apply IH. by apply run_op_NoDup.
Qed.

Lemma run_ops_grows os : ∀ db,
  NoDup (pk <$> db) →
  ∃ kept added,
    run_ops os db = kept ++ added ∧ Forall2 same_but_hash db kept ∧
    (length added ≤ length os)%nat.
Proof.
  induction os as [|o os IH]; intros db Hnd.
  - exists db, []. rewrite app_nil_r. split; [done|]. split; [|done].
    apply Forall_Forall2_diag, Forall_forall. intros r _. apply same_but_hash_refl.
  - destruct (IH (run_op db o) (run_op_NoDup db o Hnd)) as (kept & added & Hrun & Hkept & Hlen).
    change (run_ops (o :: os) db) with (run_ops os (run_op db o)).
    rewrite Hrun. cbn [length].
    destruct (run_op_shape db o Hnd) as [Hop|[(r & Hop & _)|(key & h & Hop)]];
      rewrite Hop in Hkept.
    + exists kept, added. split; [done|]. split; [done|]. lia.
    + apply Forall2_app_inv_l in Hkept as (kept1 & kept2 & Hk1 & Hk2 & ->).
      exists kept1, (kept2 ++ added). rewrite <-app_assoc. split; [done|]. split; [done|].
      apply Forall2_length in Hk2. rewrite length_app. simpl in *. lia.
    + exists kept, added. split; [done|]. split; [|lia].
      assert (Forall2 same_but_hash db (rehash key h <$> db)) as Hstep.
      { apply Forall2_fmap_r, Forall_Forall2_diag, Forall_forall.
        intros r _. apply same_but_hash_rehash. }
      eapply Forall2_trans; [|exact Hstep|exact Hkept].
      intros r1 r2 r3 H12 H23. by eapply same_but_hash_trans.
Qed.

(** Along every history that starts on the empty registry no two records
    share a primary key. *)
Theorem registry_keys_unique os : NoDup (pk <$> run_ops os []).
Proof. apply run_ops_NoDup. constructor. Qed.

(** The registry is append-only but for the hash: continuing a history never
    deletes or reorders a record and never changes a field of a record other
    than [chunk_hash], and it adds at most one record per operation. *)
Theorem registry_append_only os os' :
  ∃ kept added,
    run_ops (os ++ os') [] = kept ++ added ∧
    Forall2 same_but_hash (run_ops os []) kept ∧
    (length added ≤ length os')%nat.
Proof.
  unfold run_ops at 1. rewrite fold_left_app.
  apply run_ops_grows, (run_ops_NoDup os []). constructor.
Qed.
End history_more.

(** * More on ChunkRegistry: updates and queries *)



Lemma filter_none {A} (p : A → bool) (l : list A) :
  (∀ x, p x = false) → List.filter p l = [].
Proof. intros Hp. induction l as [|a l IH]; simpl; [done|]. by rewrite Hp. Qed.

Section update_query_more.
Import ChunkRegistry ChunkHistory ChunkQuery.
Context `{Constants} `{HashProvider}.

(** Saving a row that was read under [key], with a new hash: the row is found
    again under [key] with that hash, every other key finds what it found
    before, and the table has as many rows as before. *)
Lemma save_lookup key self h (db : table) :
  get_by_pk key db = Some self →
  get_by_pk key (save (set_chunk_hash self h) db) = Some (set_chunk_hash self h) ∧
  (∀ k, k ≠ key → get_by_pk k (save (set_chunk_hash self h) db) = get_by_pk k db) ∧
  length (save (set_chunk_hash self h) db) = length db.
Proof.
  intros Hget. pose proof (get_by_pk_Some _ _ _ Hget) as [Hin Hpk].
  unfold save. simpl.
  rewrite bool_decide_eq_true_2 by (by apply list_elem_of_fmap_2).
  set (g := fun r => if bool_decide (pk r = pk self) then set_chunk_hash self h else r).
  assert (∀ k r, bool_decide (pk (g r) = k) = bool_decide (pk r = k)) as Hg.
  { intros k r. unfold g. destruct (bool_decide (pk r = pk self)) eqn:Hr; [|done].
    apply bool_decide_eq_true_1 in Hr. simpl. by rewrite Hr. }
  split; [|split].
  - unfold get_by_pk in *. rewrite find_fmap_stable by apply Hg.
    rewrite Hget. simpl. unfold g. by rewrite bool_decide_eq_true_2.
  - intros k Hk. unfold get_by_pk. rewrite find_fmap_stable by apply Hg.
    destruct (List.find _ db) as [r|] eqn:Hfind; [|done]. simpl. f_equal.
    apply find_some in Hfind as [_ Hr%bool_decide_eq_true_1].
    unfold g. rewrite bool_decide_eq_false_2; [done|]. congruence.
  - apply length_fmap.
Qed.

(** Update and look up: after [update_chunk_hash] (or its low-memory
    variant) on the record read under a key, that key reads the record with
    the new hash and all its other fields, no other key reads anything new,
    and the registry has as many records as before. *)
Theorem update_chunk_hash_lookup key self data frags db :
  get_by_pk key db = Some self →
  (get_by_pk key (snd (update_chunk_hash self data db))
   = Some (set_chunk_hash self (security.chunk_hash data)) ∧
   (∀ k, k ≠ key → get_by_pk k (snd (update_chunk_hash self data db)) = get_by_pk k db) ∧
   length (snd (update_chunk_hash self data db)) = length db) ∧
  (get_by_pk key (snd (low_memory_update_chunk_hash self frags db))
   = Some (set_chunk_hash self (security.low_memory_chunk_hash frags)) ∧
   (∀ k, k ≠ key →
         get_by_pk k (snd (low_memory_update_chunk_hash self frags db)) = get_by_pk k db) ∧
   length (snd (low_memory_update_chunk_hash self frags db)) = length db).
Proof. intros Hget. split; by apply save_lookup. Qed.





(** Register and query: the record a successful [register_chunked_data]
    creates is the last of the table, and the range query finds it under its
    study, its participant's patient id, its data type and a window that
    closes on its time bin at both ends. *)
Theorem registered_chunk_is_found ps p dt tb cp fc st pa su db db' :
  Participant.patient_id_of ps pa = Some p →
  register_chunked_data dt tb cp fc st pa su db = (Return (), db') →
  ∃ r, last db' = Some r ∧
       r ∈ get_chunks_time_range ps st (Some [p]) (Some [dt])
             (ArgDatetime (time_bin r)) (ArgDatetime (time_bin r)) db'.
Proof.
  intros Hp (_ & n & t & _ & _ & ->)%register_chunked_data_inv.
  eexists. split; [apply last_snoc|].
  apply list_elem_of_In, filter_In. split.
  - apply in_or_app. right. by left.
  - simpl. rewrite Hp. rewrite !bool_decide_eq_true_2; try done; try lia.
    + apply list_elem_of_here.
    + apply list_elem_of_here.
Qed.

(** A window whose end is before its start selects nothing. *)
Theorem inverted_window_is_empty ps sid u d (s e : datetime) db :
  e < s →
  get_chunks_time_range ps sid u d (ArgDatetime s) (ArgDatetime e) db = [].
Proof.
  intros Hes. unfold get_chunks_time_range, objects_filter.
  apply filter_none. intros r. apply not_true_iff_false. intros Hall.
  rewrite forallb_forall in Hall.
  assert (lookup_holds ps r (time_bin__gte s) = true) as Hs
    by (apply Hall; destruct u as [[|??]|], d as [[|??]|]; simpl; tauto).
  assert (lookup_holds ps r (time_bin__lte e) = true) as He
    by (apply Hall; destruct u as [[|??]|], d as [[|??]|]; simpl; tauto).
  simpl in Hs, He. apply bool_decide_eq_true_1 in Hs, He. lia.
Qed.

End update_query_more.

(** * More on FileToProcess *)

Lemma prefix_append s t : String.prefix s (s +:+ t) = true.
Proof.
  induction s as [|c s IH]; simpl; [by destruct t|].
  destruct (ascii_dec c c); [exact IH|done].
Qed.

Lemma filter_all_false {A} (p : A → bool) (l : list A) :
  Forall (fun x => p x = false) l → List.filter p l = [].
Proof. induction 1 as [|a l Ha _ IH]; simpl; [done|]. by rewrite Ha. Qed.

Section queue_more.
Import FileToProcess.

Lemma get_pk_unknown studies id :
  Forall (fun s => Study.object_id s ≠ id) studies → Study.get_pk studies id = Raise DoesNotExist.
Proof.
  intros Hall. unfold Study.get_pk. rewrite filter_all_false; [done|].
  eapply Forall_impl; [exact Hall|]. intros s Hs. by apply bool_decide_eq_false_2.
Qed.

Lemma get_pk_unique studies s :
  NoDup (Study.object_id <$> studies) → s ∈ studies →
  Study.get_pk studies (Study.object_id s) = Return (Study.pk s).
Proof.
  intros Hnd Hin. unfold Study.get_pk.
  assert (List.filter (fun s' => bool_decide (Study.object_id s' = Study.object_id s)) studies
          = [s]) as ->; [|done].
  induction studies as [|x studies IH]; [by apply elem_of_nil in Hin|].
  rewrite fmap_cons in Hnd. apply NoDup_cons in Hnd as [Hx Hnd]. simpl.
  apply elem_of_cons in Hin as [->|Hin].
  - rewrite bool_decide_eq_true_2 by done. f_equal.
    apply filter_all_false, Forall_forall. intros s' Hs'.
    apply bool_decide_eq_false_2. intros Heq. apply Hx. rewrite <-Heq.
    by apply list_elem_of_fmap_2.
  - rewrite bool_decide_eq_false_2; [by apply IH|].
    intros Heq. apply Hx. rewrite Heq. by apply list_elem_of_fmap_2.
Qed.

Lemma get_pk_ambiguous l1 s1 l2 s2 l3 id :
  Study.object_id s1 = id → Study.object_id s2 = id →
  Study.get_pk (l1 ++ s1 :: l2 ++ s2 :: l3) id = Raise MultipleObjectsReturned.
Proof.
  intros H1 H2. unfold Study.get_pk.
  rewrite List.filter_app. simpl. rewrite (bool_decide_eq_true_2 _ H1).
  rewrite List.filter_app. simpl. rewrite (bool_decide_eq_true_2 _ H2).
  destruct (List.filter _ l1) as [|a [|b l]]; simpl; try done;
    destruct (List.filter _ l2) as [|a' l']; done.
Qed.

(** Every path the queue stores starts with the public identifier of its
    study, whatever the length of the identifier: a successful call appends
    one entry, under the key of the study, whose path is the path given or
    the identifier, a slash and the path given, and has the identifier as a
    prefix either way. *)
Theorem queued_path_starts_with_study studies file_path study_object_id pa db db' :
  append_file_for_processing studies file_path study_object_id pa db = (Return (), db') →
  ∃ study_pk e,
    Study.get_pk studies study_object_id = Return study_pk ∧
    db' = db ++ [e] ∧
    String.prefix study_object_id (s3_file_path e) = true ∧
    (s3_file_path e = file_path ∨ s3_file_path e = study_object_id +:+ "/" +:+ file_path) ∧
    study_id e = study_pk ∧ participant_id e = pa.
Proof.
  unfold append_file_for_processing.
  destruct (Study.get_pk studies study_object_id) as [study_pk|e]; [|discriminate].
  case_bool_decide as Hslice; intros [= <-]; eexists study_pk, _;
    (split; [done|]); (split; [reflexivity|]); simpl.
  - split; [by apply slice_equal_prefix|]. auto.
  - split; [apply prefix_append|]. auto.
Qed.

(** The study lookup of line 106 decides the call before anything is
    stored: no study with the identifier raises DoesNotExist, two studies
    with it raise MultipleObjectsReturned, both with the queue untouched; and
    where identifiers are unique, a study of the table gets its entry under
    its own key. *)
Theorem enqueue_study_lookup studies file_path study_object_id pa db :
  (Forall (fun s => Study.object_id s ≠ study_object_id) studies →
   append_file_for_processing studies file_path study_object_id pa db
   = (Raise DoesNotExist, db)) ∧
  (∀ l1 s1 l2 s2 l3,
     studies = l1 ++ s1 :: l2 ++ s2 :: l3 →
     Study.object_id s1 = study_object_id → Study.object_id s2 = study_object_id →
     append_file_for_processing studies file_path study_object_id pa db
     = (Raise MultipleObjectsReturned, db)) ∧
  (∀ s, NoDup (Study.object_id <$> studies) → s ∈ studies →
        Study.object_id s = study_object_id →
        ∃ e, append_file_for_processing studies file_path study_object_id pa db
             = (Return (), db ++ [e]) ∧
             study_id e = Study.pk s).
Proof.
  unfold append_file_for_processing. split; [|split].
  - intros Hall. by rewrite get_pk_unknown.
  - intros l1 s1 l2 s2 l3 -> H1 H2. by rewrite get_pk_ambiguous.
  - intros s Hnd Hin <-. rewrite get_pk_unique by done.
    case_bool_decide; eexists; (split; [reflexivity|done]).
Qed.

(** For an identifier of 24 characters the normalisation is idempotent:
    queueing the stored path again stores that same path. *)
Theorem enqueue_normalisation_idempotent studies file_path study_object_id pa pa' db db' db2 :
  String.length study_object_id = 24%nat →
  append_file_for_processing studies file_path study_object_id pa db = (Return (), db') →
  ∃ e, db' = db ++ [e] ∧
       append_file_for_processing studies (s3_file_path e) study_object_id pa' db2
       = (Return (), db2 ++ [ {| s3_file_path := s3_file_path e; study_id := study_id e;
                                 participant_id := pa' |} ]).
Proof.
  intros Hlen. unfold append_file_for_processing.
  destruct (Study.get_pk studies study_object_id) as [study_pk|e]; [|discriminate].
  case_bool_decide as Hslice; intros [= <-]; eexists; (split; [reflexivity|]); simpl.
  - by rewrite bool_decide_eq_true_2.
  - rewrite bool_decide_eq_true_2; [done|].
    apply slice_equal_iff_prefix; [done|]. apply prefix_append.
Qed.
End queue_more.

(** * The properties above, on the example configuration *)



Lemma chunked_time_bin_floor_or_next_witness :
  ∃ m r,
    py_floor (PyFloat (-3 # 2)) = Return m ∧
    [ {| ChunkRegistry.pk := 1; ChunkRegistry.is_chunkable := true;
         ChunkRegistry.chunk_path := "/chunks/x"; ChunkRegistry.chunk_hash := "efaa";
         ChunkRegistry.data_type := "accelerometer";
         ChunkRegistry.time_bin := -3600 * 1000000;
         ChunkRegistry.study_id := 1; ChunkRegistry.participant_id := 2;
         ChunkRegistry.survey_id := None |} ] = [] ++ [r] ∧
    (ChunkRegistry.time_bin r = m * 3600 * 1000000 ∨
     ChunkRegistry.time_bin r = (m + 1) * 3600 * 1000000).
Proof.
  apply (@chunked_time_bin_floor_or_next example_constants checksum16
           "accelerometer" (PyFloat (-3 # 2)) "/chunks/x" example_bytes 1 2 None []).
  vm_compute. reflexivity.
Defined.

Lemma update_chunk_hash_lookup_witness :
  ChunkHistory.get_by_pk 1
    (snd (@ChunkRegistry.update_chunk_hash checksum16 example_chunk_record [] example_registry))
  = Some (ChunkRegistry.set_chunk_hash example_chunk_record (@security.chunk_hash checksum16 [])) ∧
  length (snd (@ChunkRegistry.update_chunk_hash checksum16 example_chunk_record []
                 example_registry))
  = length example_registry.
Proof.
  destruct (@update_chunk_hash_lookup checksum16 1 example_chunk_record [] [example_bytes]
              example_registry eq_refl) as [(Hkey & _ & Hlen) _].
  split; [exact Hkey|exact Hlen].
Defined.


Lemma registered_chunk_is_found_witness :
  ∃ r, last example_registry = Some r ∧
       r ∈ ChunkQuery.get_chunks_time_range example_participants 1
             (Some ["h6fflp"]) (Some ["accelerometer"])
             (ChunkQuery.ArgDatetime (ChunkRegistry.time_bin r))
             (ChunkQuery.ArgDatetime (ChunkRegistry.time_bin r)) example_registry.
Proof.
  apply (@registered_chunk_is_found example_constants checksum16 example_participants
           "h6fflp" "accelerometer" (PyInt 1000) "/chunks/x" example_bytes 1 2 None []).
  - reflexivity.
  - vm_compute. reflexivity.
Defined.

Lemma inverted_window_is_empty_witness :
  ChunkQuery.get_chunks_time_range example_participants 1 None None
    (ChunkQuery.ArgDatetime (1000 * 3600 * 1000000)) (ChunkQuery.ArgDatetime 0) example_registry
  = [].
Proof. apply inverted_window_is_empty. reflexivity. Defined.

Lemma queued_path_starts_with_study_witness :
  ∃ study_pk e,
    Study.get_pk example_studies "abc123" = Return study_pk ∧
    [ {| FileToProcess.s3_file_path := "abc123/abc123/device.csv";
         FileToProcess.study_id := 8; FileToProcess.participant_id := 2 |} ] = [] ++ [e] ∧
    String.prefix "abc123" (FileToProcess.s3_file_path e) = true ∧
    (FileToProcess.s3_file_path e = "abc123/device.csv" ∨
     FileToProcess.s3_file_path e = "abc123" +:+ "/" +:+ "abc123/device.csv") ∧
    FileToProcess.study_id e = study_pk ∧ FileToProcess.participant_id e = 2.
Proof.
  apply (queued_path_starts_with_study example_studies "abc123/device.csv" "abc123" 2 []).
  reflexivity.
Defined.

Lemma enqueue_study_lookup_witness :
  FileToProcess.append_file_for_processing example_studies "device.csv" "nosuchstudy" 2 []
  = (Raise DoesNotExist, []) ∧
  FileToProcess.append_file_for_processing
    (example_studies ++ [ {| Study.pk := 9; Study.object_id := "abc123" |} ])
    "device.csv" "abc123" 2 []
  = (Raise MultipleObjectsReturned, []) ∧
  ∃ e, FileToProcess.append_file_for_processing example_studies "device.csv" "abc123" 2 []
       = (Return (), [] ++ [e]) ∧
       FileToProcess.study_id e = 8.
Proof.
  split; [|split].
  - apply (enqueue_study_lookup example_studies "device.csv" "nosuchstudy" 2 []).
    repeat constructor; simpl; discriminate.
  - apply (proj1 (proj2 (enqueue_study_lookup
             (example_studies ++ [ {| Study.pk := 9; Study.object_id := "abc123" |} ])
             "device.csv" "abc123" 2 [])))
      with (l1 := [ {| Study.pk := 7; Study.object_id := "5873fe38644ad7557b168e43" |} ])
           (s1 := {| Study.pk := 8; Study.object_id := "abc123" |}) (l2 := [])
           (s2 := {| Study.pk := 9; Study.object_id := "abc123" |}) (l3 := []);
      reflexivity.
  - apply (proj2 (proj2 (enqueue_study_lookup example_studies "device.csv" "abc123" 2 []))
             {| Study.pk := 8; Study.object_id := "abc123" |}).
    + apply (bool_decide_unpack _). vm_compute. exact I.
    + apply list_elem_of_further, list_elem_of_here.
    + reflexivity.
Defined.

Lemma enqueue_normalisation_idempotent_witness :
  ∃ e, [ {| FileToProcess.s3_file_path := "5873fe38644ad7557b168e43/device.csv";
            FileToProcess.study_id := 7; FileToProcess.participant_id := 2 |} ] = [] ++ [e] ∧
       FileToProcess.append_file_for_processing example_studies
         (FileToProcess.s3_file_path e) "5873fe38644ad7557b168e43" 3 []
       = (Return (), [] ++ [ {| FileToProcess.s3_file_path := FileToProcess.s3_file_path e;
                                FileToProcess.study_id := FileToProcess.study_id e;
                                FileToProcess.participant_id := 3 |} ]).
Proof.
  apply (enqueue_normalisation_idempotent example_studies
           "device.csv" "5873fe38644ad7557b168e43" 2 3 [] _ []).
  - reflexivity.
  - reflexivity.
Defined.
